(** * Prompt builders of [aipyapp/aipy/prompt.py]

    A shallow embedding of the module's five builders
    ([get_system_prompt], [get_task_prompt], [get_results_prompt],
    [get_chat_prompt], [get_mcp_result_prompt]) and of the Python
    primitives they rest on: [str.strip], [str.format], [OrderedDict]
    item assignment and [os.environ.get]. *)

From Stdlib Require Import NArith ZArith Ascii String Decimal Lia.
From stdpp Require Import base option list gmap.

(** ** Python strings *)

(** A Python [str] is a sequence of Unicode code points. *)
Definition pystr : Type := list N.

Module Utf8.

(** The source file is UTF-8 ([# coding: utf-8]); its literals are
    written here as byte strings and decoded to code points. *)
Definition bytes_of (s : string) : list N :=
  List.map N_of_ascii (list_ascii_of_string s).

Definition cont (b : N) : N := N.land b 63.

Fixpoint decode (bs : list N) : pystr :=
  match bs with
  | [] => []
  | b0 :: r0 =>
    if (b0 <? 128)%N then b0 :: decode r0
    else match r0 with
    | [] => [b0]
    | b1 :: r1 =>
      if (b0 <? 224)%N then
        (N.shiftl (N.land b0 31) 6 + cont b1)%N :: decode r1
      else match r1 with
      | [] => [b0; b1]
      | b2 :: r2 =>
        if (b0 <? 240)%N then
          (N.shiftl (N.land b0 15) 12 + N.shiftl (cont b1) 6 + cont b2)%N
            :: decode r2
        else match r2 with
        | [] => [b0; b1; b2]
        | b3 :: r3 =>
          (N.shiftl (N.land b0 7) 18 + N.shiftl (cont b1) 12
             + N.shiftl (cont b2) 6 + cont b3)%N :: decode r3
        end
      end
    end
  end.

End Utf8.

(** A string literal of the source. *)
Definition lit (s : string) : pystr := Utf8.decode (Utf8.bytes_of s).
Arguments lit s%_string.

Definition nl : pystr := [10%N].
Definition dq : pystr := [34%N].
Definition LBRACE : N := 123%N.
Definition RBRACE : N := 125%N.

(** The text of a triple-quoted literal, given line by line. *)
Fixpoint join_nl (lines : list pystr) : pystr :=
  match lines with
  | [] => []
  | [l] => l
  | l :: rest => l ++ nl ++ join_nl rest
  end.

Fixpoint str_eqb (a b : pystr) : bool :=
  match a, b with
  | [], [] => true
  | x :: a', y :: b' => (x =? y)%N && str_eqb a' b'
  | _, _ => false
  end.

(** [a in b] on strings: [a] occurs as a contiguous run of [b]. *)
Fixpoint str_prefix (a b : pystr) : bool :=
  match a, b with
  | [], _ => true
  | x :: a', y :: b' => (x =? y)%N && str_prefix a' b'
  | _ :: _, [] => false
  end.

Fixpoint str_contains (a b : pystr) : bool :=
  str_prefix a b || match b with [] => false | _ :: b' => str_contains a b' end.

(** *** [str.strip]

    With no argument [strip] removes the characters for which
    [str.isspace] holds, at both ends. The set is CPython's
    [_Py_ascii_whitespace] below 128 and [_PyUnicode_IsWhitespace]
    above. *)
Definition is_space (c : N) : bool :=
  ((9 <=? c) && (c <=? 13) || (28 <=? c) && (c <=? 32)
   || (c =? 133) || (c =? 160) || (c =? 5760)
   || (8192 <=? c) && (c <=? 8202)
   || (c =? 8232) || (c =? 8233) || (c =? 8239) || (c =? 8287)
   || (c =? 12288))%N.

Fixpoint lstrip (s : pystr) : pystr :=
  match s with
  | c :: s' => if is_space c then lstrip s' else s
  | [] => []
  end.

Definition rstrip (s : pystr) : pystr := rev (lstrip (rev s)).

Definition strip (s : pystr) : pystr := rstrip (lstrip s).

(** ** Exceptions *)

Inductive exn : Type :=
| ValueError
| KeyError (key : pystr)
| IndexError
| NotModelled.

Inductive py_result (A : Type) : Type :=
| Ok (a : A)
| Raise (e : exn).
Arguments Ok {A} a.
Arguments Raise {A} e.

Global Instance py_result_ret : MRet py_result := fun A a => Ok a.
Global Instance py_result_bind : MBind py_result := fun A B k m =>
  match m with
  | Ok a => k a
  | Raise e => Raise e
  end.

(** ** Insertion-ordered dictionaries

    [dict] and [OrderedDict] keep their keys in insertion order;
    assigning to a key that is present replaces its value in place. *)
Definition odict (V : Type) : Type := list (pystr * V).

Section Odict.
Context {V : Type}.

Fixpoint od_get (k : pystr) (d : odict V) : option V :=
  match d with
  | [] => None
  | (k', v) :: d' => if str_eqb k k' then Some v else od_get k d'
  end.

Fixpoint od_set (k : pystr) (v : V) (d : odict V) : odict V :=
  match d with
  | [] => [(k, v)]
  | (k', v') :: d' =>
    if str_eqb k k' then (k, v) :: d' else (k', v') :: od_set k v d'
  end.

Definition od_keys (d : odict V) : list pystr := List.map fst d.

Definition od_mem (k : pystr) (d : odict V) : bool :=
  match od_get k d with Some _ => true | None => false end.
End Odict.

(** ** [str.format]

    [template.format] called with keyword arguments that are strings. The scan follows
    CPython's [MarkupIterator]: literal text is copied, a doubled brace
    stands for one brace, and [{name}] is replaced by [kwargs[name]];
    the replacement text is never scanned again. A lone brace is a
    [ValueError], a missing name a [KeyError], and an empty or numeric
    name refers to a positional argument, of which there are none
    ([IndexError]). Conversions, format specifications and attribute
    or index lookups, which no template of this module uses, are
    [NotModelled]. *)
Definition is_digit (c : N) : bool := ((48 <=? c) && (c <=? 57))%N.

Definition beyond_plain_name (c : N) : bool :=
  ((c =? 33) || (c =? 58) || (c =? 46) || (c =? 91) || (c =? 93)
   || (128 <=? c))%N.

Definition get_value (name : pystr) (kwargs : odict pystr) : py_result pystr :=
  match name with
  | [] => Raise IndexError
  | _ =>
    if forallb is_digit name then Raise IndexError
    else match od_get name kwargs with
         | Some v => Ok v
         | None => Raise (KeyError name)
         end
  end.

Fixpoint format_literal (kwargs : odict pystr) (s : pystr) {struct s}
  : py_result pystr :=
  match s with
  | [] => Ok []
  | c :: rest =>
    if (c =? LBRACE)%N then
      match rest with
      | [] => Raise ValueError
      | c' :: rest' =>
        if (c' =? LBRACE)%N then
          out ← format_literal kwargs rest'; Ok (LBRACE :: out)
        else format_field kwargs [] rest
      end
    else if (c =? RBRACE)%N then
      match rest with
      | [] => Raise ValueError
      | c' :: rest' =>
        if (c' =? RBRACE)%N then
          out ← format_literal kwargs rest'; Ok (RBRACE :: out)
        else Raise ValueError
      end
    else out ← format_literal kwargs rest; Ok (c :: out)
  end
with format_field (kwargs : odict pystr) (name_rev : pystr) (s : pystr)
  {struct s} : py_result pystr :=
  match s with
  | [] => Raise ValueError
  | c :: rest =>
    if (c =? RBRACE)%N then
      v ← get_value (rev name_rev) kwargs;
      out ← format_literal kwargs rest;
      Ok (v ++ out)
    else if (c =? LBRACE)%N then Raise ValueError
    else if beyond_plain_name c then Raise NotModelled
    else format_field kwargs (c :: name_rev) rest
  end.

Definition str_format (template : pystr) (kwargs : odict pystr)
  : py_result pystr :=
  format_literal kwargs template.

(** ** The templates *)

(** [SYSTEM_PROMPT_TEMPLATE], lines 10-15 of prompt.py. *)
Definition SYSTEM_PROMPT_TEMPLATE : pystr :=
  join_nl
    [ [];
      lit "{role_prompt}";
      lit "{aipy_prompt}";
      lit "{tips_prompt}";
      lit "{api_prompt}";
      [] ].

(** [AIPY_PROMPT], lines 17-201 of prompt.py. *)
Definition AIPY_PROMPT : pystr :=
  join_nl
    [ [];
      lit "# 输出内容格式规范";
      lit "输出内容必须采用结构化的 Markdown 格式，并符合以下规则：";
      [];
      lit "## 多行代码块标记";
      lit "1. 代码块必须用一对HTML注释标记包围，格式如下：";
      lit "   - 代码开始：<!-- Block-Start: {" ++ dq ++ lit "name" ++ dq ++ lit ": " ++ dq ++ lit "代码块名称" ++ dq ++ lit ", " ++ dq ++ lit "version" ++ dq ++ lit ": 数字版本号如1/2/3, " ++ dq ++ lit "path" ++ dq ++ lit ": " ++ dq ++ lit "该代码块的可选文件路径" ++ dq ++ lit "} -->";
      lit "   - 代码本体：用 Markdown 代码块包裹（如 ```python 或 ```html 等)。";
      lit "   - 代码结束：<!-- Block-End: { " ++ dq ++ lit "name" ++ dq ++ lit ": 和Block-Start中的name一致 } -->";
      [];
      lit "2. 多个代码块可以使用同一个name，但版本必须不同。版本最高的代码块会被认为是最新的有效版本。";
      [];
      lit "3. `path` 为代码块需要保存为的本地文件路径可以包含目录, 如果是相对路径则默认为相对当前目录或者用户指定目录.";
      [];
      lit "4. 同一个输出消息里可以定义多个代码块。";
      [];
      lit "5. **正确示例：**";
      lit "<!-- Block-Start: {" ++ dq ++ lit "name" ++ dq ++ lit ": " ++ dq ++ lit "abc123" ++ dq ++ lit ", " ++ dq ++ lit "version" ++ dq ++ lit ": 1, " ++ dq ++ lit "path" ++ dq ++ lit ": " ++ dq ++ lit "main.py" ++ dq ++ lit "} -->";
      lit "```python";
      lit "print(" ++ dq ++ lit "hello world" ++ dq ++ lit ")";
      lit "```";
      lit "<!-- Block-End: {" ++ dq ++ lit "name" ++ dq ++ lit ": " ++ dq ++ lit "abc123" ++ dq ++ lit "} -->";
      [];
      lit "## 单行命令标记";
      lit "1. 每次输出中只能包含 **一个** `Cmd-Exec` 标记，用于执行可执行代码块来完成用户的任务：";
      lit "   - 格式：<!-- Cmd-Exec: {" ++ dq ++ lit "name" ++ dq ++ lit ": " ++ dq ++ lit "要执行的代码块 name" ++ dq ++ lit "} -->";
      lit "   - 如果不需要执行任何代码，则不要添加 `Cmd-Exec`。";
      lit "   - 要执行的代码块必需先使用前述多行代码块标记格式单独定义。";
      lit "   - 如果代码块有多个版本，执行代码块的最新版本。";
      lit "   - 可以使用 `Cmd-Exec` 执行会话历史中的所有代码块。特别地，如果需要重复执行某个任务，尽量使用 `Cmd-Exec` 执行而不是重复输出代码块。";
      [];
      lit "2. Cmd-Exec 只能用来执行 Python 代码块，不能执行其它语言(如 JSON/CSS/JavaScript等)的代码块。";
      [];
      lit "3. **正确示例：**";
      lit "<!-- Cmd-Exec: {" ++ dq ++ lit "name" ++ dq ++ lit ": " ++ dq ++ lit "abc123" ++ dq ++ lit "} -->";
      [];
      lit "## 其它   ";
      lit "1. 所有 JSON 内容必须写成**单行紧凑格式**，例如：";
      lit "   <!-- Block-Start: {" ++ dq ++ lit "name" ++ dq ++ lit ": " ++ dq ++ lit "abc123" ++ dq ++ lit ", " ++ dq ++ lit "path" ++ dq ++ lit ": " ++ dq ++ lit "main.py" ++ dq ++ lit ", " ++ dq ++ lit "version" ++ dq ++ lit ": 1} -->";
      [];
      lit "2. 禁止输出代码内容重复的代码块，通过代码块name来引用之前定义过的代码块。";
      [];
      lit "遵循上述规则，生成输出内容。";
      [];
      lit "# 生成Python代码规则";
      lit "- 确保代码在下述`Python运行环境描述`中描述的运行环境中可以无需修改直接执行";
      lit "- 实现适当的错误处理，包括但不限于：";
      lit "  * 文件操作的异常处理";
      lit "  * 网络请求的超时和连接错误处理";
      lit "  * 数据处理过程中的类型错误和值错误处理";
      lit "- 如果需要区分正常和错误信息，可以把错误信息输出到 stderr。";
      lit "- 不允许执行可能导致 Python 解释器退出的指令，如 exit/quit 等函数，请确保代码中不包含这类操作。";
      [];
      lit "# Python运行环境描述";
      lit "在标准 Python 运行环境的基础上额外增加了下述功能：";
      lit "- 一些预装的第三方包";
      lit "- 全局 `runtime` 对象";
      lit "- `set_state` 函数：设置当前代码块的执行结果状态，或保存数据到会话中。";
      lit "- `get_persistent_state` 函数：获取会话中持久化的状态值。";
      [];
      lit "生成 Python 代码时可以直接使用这些额外功能。";
      [];
      lit "## `set_result` 函数";
      lit "- 定义: `set_result(" ++ lit "**kwargs)`";
      lit "- 参数: ";
      lit "  - **kwargs: 状态键值对，类型可以为任意Python基本数据类型，如字符串/数字/列表/字典等。";
      lit "- 用途: 设置当前代码块的运行结果值，作为当前代码块的执行结果反馈。";
      lit "- 使用示例：";
      lit "```python";
      lit "set_result(success=False, reason=" ++ dq ++ lit "Error: 发生了错误" ++ dq ++ lit ") # 设置当前代码块的执行结果状态";
      lit "set_result(success=True, data={" ++ dq ++ lit "name" ++ dq ++ lit ": " ++ dq ++ lit "John" ++ dq ++ lit ", " ++ dq ++ lit "age" ++ dq ++ lit ": 30}) # 设置当前代码块的执行结果状态";
      lit "```";
      [];
      lit "## `set_persistent_state` 函数";
      lit "- 定义: `set_persistent_state(" ++ lit "**kwargs)`";
      lit "- 参数: ";
      lit "  - **kwargs: 状态键值对，类型可以为任意Python基本数据类型，如字符串/数字/列表/字典等。";
      lit "- 用途: 设置会话中持久化的状态值。";
      lit "- 使用示例：";
      lit "```python";
      lit "set_persistent_state(data={" ++ dq ++ lit "name" ++ dq ++ lit ": " ++ dq ++ lit "John" ++ dq ++ lit ", " ++ dq ++ lit "age" ++ dq ++ lit ": 30}) # 保存数据到会话中";
      lit "```";
      [];
      lit "## `get_persistent_state` 函数";
      lit "- 类型: 函数。";
      lit "- 参数: ";
      lit "  - key: 状态键名";
      lit "- 用途: 获取会话中持久化的状态值。不存在时返回 None。";
      lit "- 使用示例：";
      lit "```python";
      lit "data = get_persistent_state(" ++ dq ++ lit "data" ++ dq ++ lit ")";
      lit "```";
      [];
      lit "## 预装的第三方包";
      lit "下述第三方包可以无需安装直接使用：";
      lit "- `requests`、`numpy`、`pandas`、`matplotlib`、`seaborn`、`bs4`。";
      [];
      lit "其它第三方包，都必需通过下述 runtime 对象的 install_packages 方法申请安装才能使用。";
      [];
      lit "在使用 matplotlib 时，需要根据系统类型选择和设置合适的中文字体，否则图片里中文会乱码导致无法完成客户任务。";
      lit "示例代码如下：";
      lit "```python";
      lit "import platform";
      [];
      lit "system = platform.system().lower()";
      lit "font_options = {";
      lit "    'windows': ['Microsoft YaHei', 'SimHei'],";
      lit "    'darwin': ['Kai', 'Hei'],";
      lit "    'linux': ['Noto Sans CJK SC', 'WenQuanYi Micro Hei', 'Source Han Sans SC']";
      lit "}";
      lit "```";
      [];
      lit "## 全局 runtime 对象";
      lit "runtime 对象提供一些协助代码完成任务的方法。";
      [];
      lit "### `runtime.get_block_by_name` 方法";
      lit "- 功能: 获取指定 name 的最新版本的代码块对象";
      lit "- 定义: `get_block_by_name(code_block_name)`";
      lit "- 参数: `code_block_name` 为代码块的名称";
      lit "- 返回值: 代码块对象，如果不存在则返回 None。";
      [];
      lit "返回的代码块对象包含以下属性：";
      lit "- `name`: 代码块名称";
      lit "- `version`: 代码块的版本号";
      lit "- `lang`: 代码块的编程语言";
      lit "- `code`: 代码块的代码内容";
      lit "- `path`: 代码块的文件路径（如果之前未指定则为None）";
      [];
      lit "可以修改代码块的 `code` 属性来更新代码内容。";
      [];
      lit "### runtime.install_packages 方法";
      lit "- 功能: 申请安装完成任务必需的额外模块";
      lit "- 参数: 一个或多个 PyPi 包名，如：'httpx', 'requests>=2.25'";
      lit "- 返回值:True 表示成功, False 表示失败";
      [];
      lit "示例如下：";
      lit "```python";
      lit "if runtime.install_packages('httpx', 'requests>=2.25'):";
      lit "    import httpx";
      lit "```";
      [];
      lit "### runtime.get_env 方法";
      lit "- 功能: 获取代码运行需要的环境变量，如 API-KEY 等。";
      lit "- 定义: get_env(name, default=None, *, desc=None)";
      lit "- 参数: 第一个参数为需要获取的环境变量名称，第二个参数为不存在时的默认返回值，第三个可选字符串参数简要描述需要的是什么。";
      lit "- 返回值: 环境变量值，返回 None 或空字符串表示未找到。";
      [];
      lit "示例如下：";
      lit "```python";
      lit "env_name = '环境变量名称'";
      lit "env_value = runtime.get_env(env_name, " ++ dq ++ lit "No env" ++ dq ++ lit ", desc='访问API服务需要')";
      lit "if not env_value:";
      lit "    print(f" ++ dq ++ lit "Error: {env_name} is not set" ++ dq ++ lit ", file=sys.stderr)";
      lit "else:";
      lit "    print(f" ++ dq ++ lit "{env_name} is available" ++ dq ++ lit ")";
      lit "```";
      [];
      lit "### runtime.display 方法";
      lit "- 功能: 显示图片";
      lit "- 定义: display(path=" ++ dq ++ lit "path/to/image.jpg" ++ dq ++ lit ", url=" ++ dq ++ lit "https://www.example.com/image.png" ++ dq ++ lit ")";
      lit "- 参数: ";
      lit "  - path: 图片文件路径";
      lit "  - url: 图片 URL";
      lit "- 返回值: 无";
      [];
      lit "示例：";
      lit "```python";
      lit "runtime.display(path=" ++ dq ++ lit "path/to/image.png" ++ dq ++ lit ")";
      lit "runtime.display(url=" ++ dq ++ lit "https://www.example.com/image.png" ++ dq ++ lit ")";
      lit "```";
      [];
      lit "# 代码执行结果反馈";
      lit "Python代码块的执行结果会通过JSON对象反馈给你，对象包括以下属性：";
      lit "- `stdout`: 标准输出内容";
      lit "- `stderr`: 标准错误输出";
      lit "- `result`: 前述`set_result` 函数设置的当前代码块执行结果";
      lit "- `errstr`: 异常信息";
      lit "- `traceback`: 异常堆栈信息";
      lit "- `block_name`: 执行的代码块名称";
      [];
      lit "注意：";
      lit "- 如果某个属性为空，它不会出现在反馈中。";
      [];
      lit "收到反馈后，结合代码和反馈数据，做出下一步的决策。";
      [] ].

(** [TIPS_PROMPT], lines 203-206 of prompt.py. *)
Definition TIPS_PROMPT : pystr :=
  join_nl
    [ [];
      lit "# 知识点/最佳实践";
      lit "{tips}";
      [] ].

(** [API_PROMPT], lines 208-218 of prompt.py. *)
Definition API_PROMPT : pystr :=
  join_nl
    [ [];
      lit "# 一些 API 信息";
      lit "下面是用户提供的一些 API 信息，可能有 API_KEY，URL，用途和使用方法等信息。";
      lit "这些可能对特定任务有用途，你可以根据任务选择性使用。";
      [];
      lit "注意：";
      lit "1. 这些 API 信息里描述的环境变量必须用 runtime.get_env 方法获取，绝对不能使用 os.getenv 方法。";
      lit "2. API获取数据失败时，请输出完整的API响应信息，方便调试和分析问题。";
      [];
      lit "{apis}";
      [] ].

(** ** The system prompt *)

(** Modelled from the spec: the class of the [tips] argument is defined
    outside this module. [get_system_prompt] uses three things of it:
    the attribute chain [tips.role.detail], [len(tips)] and
    [str(tips)]. *)
Record Role : Type := { detail : pystr }.
Record Tips : Type := { role : Role; tips_len : nat; tips_str : pystr }.

(** Truth value of an optional string: [None] and [''] are false. *)
Definition truthy (s : option pystr) : bool :=
  match s with
  | Some (_ :: _) => true
  | _ => false
  end.

(** [a or b], for an optional string [a] and a string [b]. *)
Definition py_or (a : option pystr) (b : pystr) : pystr :=
  match a with
  | Some (c :: s) => c :: s
  | _ => b
  end.

(** The dictionary [prompts] as it stands before the last line of
    [get_system_prompt]. *)
Definition system_prompts (tips : Tips) (api_prompt : pystr)
  (user_prompt : option pystr) : py_result (odict pystr) :=
  let user_prompt :=
    if truthy user_prompt then strip <$> user_prompt else user_prompt in
  api ← str_format API_PROMPT [(lit "apis", api_prompt)];
  let prompts :=
    [ (lit "role_prompt", py_or user_prompt (detail (role tips)));
      (lit "aipy_prompt", AIPY_PROMPT);
      (lit "tips_prompt", []);
      (lit "api_prompt", api) ] in
  if negb (truthy user_prompt) && (0 <? tips_len tips)%nat then
    rendered ← str_format TIPS_PROMPT [(lit "tips", tips_str tips)];
    Ok (od_set (lit "tips_prompt") rendered prompts)
  else Ok prompts.

Definition get_system_prompt (tips : Tips) (api_prompt : pystr)
  (user_prompt : option pystr) : py_result pystr :=
  prompts ← system_prompts tips api_prompt user_prompt;
  str_format SYSTEM_PROMPT_TEMPLATE prompts.

(** The four-section envelope: [SYSTEM_PROMPT_TEMPLATE] with the
    sections in place of its placeholders. *)
Definition envelope (role_prompt aipy_prompt tips_prompt api_prompt : pystr)
  : pystr :=
  join_nl [ []; role_prompt; aipy_prompt; tips_prompt; api_prompt; [] ].

(** ** Values stored in the prompt records *)

#[warnings="-register-all"]
Inductive value : Type :=
| VNone
| VStr (s : pystr)
| VInt (z : Z)
| VTuple (items : list value)
| VList (items : list value)
| VDict (d : list (pystr * value)).

(** ** The process environment read by [get_task_prompt] *)

Record date : Type := { year : N; month : N; day : N }.

Fixpoint uint_chars (d : Decimal.uint) : pystr :=
  match d with
  | Nil => []
  | D0 d => 48%N :: uint_chars d
  | D1 d => 49%N :: uint_chars d
  | D2 d => 50%N :: uint_chars d
  | D3 d => 51%N :: uint_chars d
  | D4 d => 52%N :: uint_chars d
  | D5 d => 53%N :: uint_chars d
  | D6 d => 54%N :: uint_chars d
  | D7 d => 55%N :: uint_chars d
  | D8 d => 56%N :: uint_chars d
  | D9 d => 57%N :: uint_chars d
  end.

Definition decimal (n : N) : pystr := uint_chars (N.to_uint n).

Definition zero_pad (width : nat) (s : pystr) : pystr :=
  replicate (width - length s) 48%N ++ s.

(** [date.isoformat()]: ["%04d-%02d-%02d" % (year, month, day)]. *)
Definition isoformat (d : date) : pystr :=
  zero_pad 4 (decimal (year d)) ++ lit "-"
  ++ zero_pad 2 (decimal (month d)) ++ lit "-"
  ++ zero_pad 2 (decimal (day d)).

(** The bounds every [datetime.date] satisfies
    ([MINYEAR = 1], [MAXYEAR = 9999]). *)
Definition valid_date (d : date) : Prop :=
  (1 <= year d <= 9999)%N /\ (1 <= month d <= 12)%N /\ (1 <= day d <= 31)%N.

(** What the module reads from its surroundings: [platform.system()],
    [locale.getlocale()], [platform.platform()],
    [platform.python_version()], [date.today()] and [os.environ]. *)
Record World : Type := {
  platform_system : pystr;
  locale_getlocale : option pystr * option pystr;
  platform_platform : pystr;
  platform_python_version : pystr;
  date_today : date;
  os_environ : gmap pystr pystr
}.

(** [os.environ.get(key, fallback)]. *)
Definition environ_get (w : World) (key fallback : pystr) : pystr :=
  default fallback (os_environ w !! key).

Definition opt_value (o : option pystr) : value :=
  match o with
  | Some s => VStr s
  | None => VNone
  end.

Definition locale_value (l : option pystr * option pystr) : value :=
  VTuple [opt_value l.1; opt_value l.2].

(** ** The record builders *)

(** [gui] is the keyword parameter of the source, whose default is
    [False]. *)
Definition get_task_prompt (w : World) (instruction : pystr) (gui : bool)
  : odict value :=
  let prompt := [] in
  let prompt := od_set (lit "task") (VStr instruction) prompt in
  let prompt := od_set (lit "source") (VStr (lit "User")) prompt in
  let context := [] in
  let context := od_set (lit "os_type") (VStr (platform_system w)) context in
  let context :=
    od_set (lit "os_locale") (locale_value (locale_getlocale w)) context in
  let context :=
    od_set (lit "os_platform") (VStr (platform_platform w)) context in
  let context :=
    od_set (lit "python_version") (VStr (platform_python_version w))
      context in
  let context :=
    od_set (lit "today") (VStr (isoformat (date_today w))) context in
  let context :=
    if negb gui then
      let context :=
        od_set (lit "TERM")
          (VStr (environ_get w (lit "TERM") (lit "unknown"))) context in
      od_set (lit "LC_TERMINAL")
        (VStr (environ_get w (lit "LC_TERMINAL") (lit "unknown"))) context
    else context in
  let prompt := od_set (lit "context") (VDict context) prompt in
  let constraints := [] in
  let constraints :=
    od_set (lit "reply_language")
      (VStr (lit "Now, use the exact language of the `task` field for subsequent responses"))
      constraints in
  let constraints :=
    od_set (lit "file_creation_path") (VStr (lit "current_directory"))
      constraints in
  let constraints :=
    if gui then
      od_set (lit "matplotlib")
        (VStr (lit "DO NOT use plt.show to display picture because I'm using the Agg backend. Save pictures with plt.savefig() and display them with runtime.display()."))
        constraints
    else constraints in
  let prompt := od_set (lit "constraints") (VDict constraints) prompt in
  prompt.

Definition get_results_prompt (results : value) : odict value :=
  let prompt := [] in
  let prompt :=
    od_set (lit "message")
      (VStr (lit "These are the execution results of the code block/s automatically returned in the order of execution by the runtime environment."))
      prompt in
  let prompt :=
    od_set (lit "source") (VStr (lit "Runtime Environment")) prompt in
  let prompt := od_set (lit "results") results prompt in
  prompt.

Definition get_chat_prompt (msg task : pystr) : odict value :=
  let prompt := [] in
  let prompt := od_set (lit "message") (VStr msg) prompt in
  let prompt := od_set (lit "source") (VStr (lit "User")) prompt in
  let context := [] in
  let context := od_set (lit "initial_task") (VStr task) context in
  let prompt := od_set (lit "context") (VDict context) prompt in
  let constraints := [] in
  let constraints :=
    od_set (lit "reply_language")
      (VStr (lit "Now, use the exact language of the `message` field for subsequent responses"))
      constraints in
  let prompt := od_set (lit "constraints") (VDict constraints) prompt in
  prompt.

Definition get_mcp_result_prompt (result : value) : odict value :=
  let prompt := [] in
  let prompt :=
    od_set (lit "message")
      (VStr (lit "The following is the result of the MCP tool call")) prompt in
  let prompt := od_set (lit "source") (VStr (lit "MCP Tool")) prompt in
  let prompt := od_set (lit "result") result prompt in
  prompt.

(** ** Reading the sections of a system prompt *)

(** The value a section has in [prompts] when the prompt is rendered. *)
Definition section_of (name : pystr) (tips : Tips) (api_prompt : pystr)
  (user_prompt : option pystr) : option pystr :=
  match system_prompts tips api_prompt user_prompt with
  | Ok prompts => od_get name prompts
  | Raise _ => None
  end.

Definition brace_free (s : pystr) : bool :=
  forallb (fun c => negb (c =? LBRACE)%N && negb (c =? RBRACE)%N) s.

(** [out] is [template] with its one placeholder [{name}] replaced by
    [v], character for character. *)
Definition fills (template name v out : pystr) : Prop :=
  exists head tail,
    brace_free head = true /\ brace_free tail = true /\
    template = head ++ [LBRACE] ++ name ++ [RBRACE] ++ tail /\
    out = head ++ v ++ tail.

(** The text around the first placeholder of a template. *)
Fixpoint before_brace (s : pystr) : pystr :=
  match s with
  | [] => []
  | c :: s' => if (c =? LBRACE)%N then [] else c :: before_brace s'
  end.

Fixpoint after_brace (s : pystr) : pystr :=
  match s with
  | [] => []
  | c :: s' => if (c =? RBRACE)%N then s' else after_brace s'
  end.

Definition render_single (template v : pystr) : pystr :=
  before_brace template ++ v ++ after_brace template.

Definition single_field (template name : pystr) : bool :=
  brace_free (before_brace template) && brace_free (after_brace template)
  && str_eqb template
       (before_brace template ++ [LBRACE] ++ name ++ [RBRACE]
          ++ after_brace template).

(** The user prompt as the body of [get_system_prompt] sees it after
    its first statement. *)
Definition stripped (user_prompt : option pystr) : option pystr :=
  if truthy user_prompt then strip <$> user_prompt else user_prompt.

Definition tips_text (tips : Tips) (user_prompt : option pystr) : pystr :=
  if negb (truthy (stripped user_prompt)) && (0 <? tips_len tips)%nat
  then render_single TIPS_PROMPT (tips_str tips)
  else [].

(** A field name that [str.format] looks up among the keyword
    arguments as it is. *)
Definition plain_name (name : pystr) : bool :=
  negb (forallb is_digit name)
  && forallb (fun c => negb (beyond_plain_name c)) name
  && brace_free name.

Definition two_digits (s : pystr) : bool :=
  match s with
  | [a; b] => is_digit a && is_digit b
  | _ => false
  end.

Definition four_digits (s : pystr) : bool :=
  match s with
  | [a; b; c; d] => is_digit a && is_digit b && is_digit c && is_digit d
  | _ => false
  end.

(** The layout [YYYY-MM-DD]. *)
Definition is_iso_date (s : pystr) : bool :=
  match s with
  | [y1; y2; y3; y4; h1; m1; m2; h2; d1; d2] =>
    forallb is_digit [y1; y2; y3; y4; m1; m2; d1; d2]
    && (h1 =? 45)%N && (h2 =? 45)%N
  | _ => false
  end.

(** Arguments used to exercise the builders. *)
Definition sample_tips : Tips :=
  {| role := {| detail := lit "You are a careful analyst." |};
     tips_len := 2;
     tips_str := lit "<tips>plan first</tips>" |}.

Definition no_tips : Tips :=
  {| role := {| detail := lit "You are a careful analyst." |};
     tips_len := 0;
     tips_str := [] |}.

Definition sample_world : World :=
  {| platform_system := lit "Linux";
     locale_getlocale := (Some (lit "en_US"), Some (lit "UTF-8"));
     platform_platform := lit "Linux-6.1-x86_64";
     platform_python_version := lit "3.11.4";
     date_today := {| year := 2025; month := 3; day := 9 |};
     os_environ := {[ lit "TERM" := lit "xterm-256color" ]} |}.

(** ** Notions used to state further properties *)

(** The first character is not whitespace. *)
Definition starts_solid (s : pystr) : bool :=
  match s with
  | c :: _ => negb (is_space c)
  | [] => false
  end.

(** The last character is not whitespace. *)
Definition ends_solid (s : pystr) : bool := starts_solid (rev s).


(** The same tips collection with another string rendering. *)
Definition with_str (tips : Tips) (s : pystr) : Tips :=
  {| role := role tips; tips_len := tips_len tips; tips_str := s |}.

(** The number a run of decimal digits stands for. *)
Definition digits_value (s : pystr) : N :=
  fold_left (fun acc c => (acc * 10 + (c - 48))%N) s 0%N.

(** Replaces a closed string by the code points it stands for. *)
Ltac evaluate_literal t :=
  let v := eval vm_compute in t in change t with v.

(** * Properties *)

(** ** [str.strip] *)



Example strip_ascii : strip (lit "  a b  ") = lit "a b".
Proof. vm_compute. reflexivity. Qed.

Example strip_ideographic_space : strip (lit "　你好　") = lit "你好".
Proof. vm_compute. reflexivity. Qed.

(** ** [str.format] *)

Section Format.
Variable kwargs : odict pystr.

Lemma format_literal_brace_free (s : pystr) :
  brace_free s = true -> format_literal kwargs s = Ok s.
Proof.
  induction s as [|c s IH]; simpl; [done|].
  intros [[Hl Hr]%andb_prop Hs]%andb_prop.
  apply negb_true_iff in Hl, Hr. rewrite Hl, Hr, (IH Hs). done.
Qed.

Lemma format_field_name (name acc tail : pystr) :
  forallb (fun c => negb (beyond_plain_name c)) name = true ->
  brace_free name = true ->
  format_field kwargs acc (name ++ RBRACE :: tail)
  = (v ← get_value (rev acc ++ name) kwargs;
     out ← format_literal kwargs tail;
     Ok (v ++ out)).
Proof.
  revert acc. induction name as [|c name IH]; intros acc Hp Hb.
  - simpl. by rewrite app_nil_r.
  - simpl in Hp, Hb.
    apply andb_prop in Hp as [Hc Hp]. apply negb_true_iff in Hc.
    apply andb_prop in Hb as [[Hl Hr]%andb_prop Hb].
    apply negb_true_iff in Hl, Hr.
    simpl. rewrite Hr, Hl, Hc, (IH (c :: acc) Hp Hb).
    simpl. by rewrite <- app_assoc.
Qed.

(** The text put in place of a placeholder is copied as it is,
    whatever characters it holds. *)
Lemma str_format_single_field (head name tail v : pystr) :
  brace_free head = true -> brace_free tail = true ->
  plain_name name = true ->
  od_get name kwargs = Some v ->
  str_format (head ++ [LBRACE] ++ name ++ [RBRACE] ++ tail) kwargs
  = Ok (head ++ v ++ tail).
Proof.
  intros Hh Ht Hn Hv. unfold str_format.
  apply andb_prop in Hn as [[Hd Hp]%andb_prop Hb].
  apply negb_true_iff in Hd.
  induction head as [|c head IH].
  - destruct name as [|c name]; [done|].
    pose proof (format_field_name (c :: name) [] tail Hp Hb) as Hf.
    simpl in Hb. apply andb_prop in Hb as [[Hl _]%andb_prop _].
    apply negb_true_iff in Hl.
    cbn [app format_literal]. rewrite N.eqb_refl, Hl.
    cbn [app] in Hf. rewrite Hf. cbn [rev app].
    unfold get_value. rewrite Hd, Hv.
    rewrite (format_literal_brace_free tail Ht). done.
  - simpl in Hh. apply andb_prop in Hh as [[Hl Hr]%andb_prop Hh].
    apply negb_true_iff in Hl, Hr.
    cbn [app format_literal]. rewrite Hl, Hr.
    cbn [app] in IH. rewrite (IH Hh). done.
Qed.
End Format.

Lemma fills_format (template name v out : pystr) (kwargs : odict pystr) :
  plain_name name = true -> od_get name kwargs = Some v ->
  fills template name v out -> str_format template kwargs = Ok out.
Proof.
  intros Hn Hv (head & tail & Hh & Ht & -> & ->).
  by apply str_format_single_field.
Qed.

Example format_doubled_braces :
  str_format (lit "a{{b}}c{x}") [(lit "x", lit "{y}")] = Ok (lit "a{b}c{y}").
Proof. vm_compute. reflexivity. Qed.

Example format_lone_brace : str_format (lit "a}b") [] = Raise ValueError.
Proof. vm_compute. reflexivity. Qed.

Example format_missing_name :
  str_format (lit "{x}{y}") [(lit "x", lit "1")] = Raise (KeyError (lit "y")).
Proof. vm_compute. reflexivity. Qed.

Example format_positional : str_format (lit "{}") [] = Raise IndexError.
Proof. vm_compute. reflexivity. Qed.

(** *** The templates with one placeholder *)

Lemma str_eqb_eq (a b : pystr) : str_eqb a b = true -> a = b.
Proof.
  revert b. induction a as [|x a IH]; intros [|y b]; simpl; try done.
  intros [Hxy Hab]%andb_prop. apply N.eqb_eq in Hxy. f_equal; auto.
Qed.

Lemma str_eqb_refl (a : pystr) : str_eqb a a = true.
Proof. induction a as [|x a IH]; simpl; [done|]. by rewrite N.eqb_refl. Qed.

Lemma single_field_fills (template name v : pystr) :
  single_field template name = true ->
  fills template name v (render_single template v).
Proof.
  intros [[Hh Ht]%andb_prop He%str_eqb_eq]%andb_prop.
  exists (before_brace template), (after_brace template). done.
Qed.

Lemma TIPS_PROMPT_fills (v : pystr) :
  fills TIPS_PROMPT (lit "tips") v (render_single TIPS_PROMPT v).
Proof. apply single_field_fills. by vm_compute. Qed.

Lemma API_PROMPT_fills (v : pystr) :
  fills API_PROMPT (lit "apis") v (render_single API_PROMPT v).
Proof. apply single_field_fills. by vm_compute. Qed.

Lemma format_TIPS_PROMPT (v : pystr) :
  str_format TIPS_PROMPT [(lit "tips", v)] = Ok (render_single TIPS_PROMPT v).
Proof.
  apply fills_format with (name := lit "tips") (v := v);
    [by vm_compute | by vm_compute | apply TIPS_PROMPT_fills].
Qed.

Lemma format_API_PROMPT (v : pystr) :
  str_format API_PROMPT [(lit "apis", v)] = Ok (render_single API_PROMPT v).
Proof.
  apply fills_format with (name := lit "apis") (v := v);
    [by vm_compute | by vm_compute | apply API_PROMPT_fills].
Qed.

(** *** The envelope *)

Lemma format_SYSTEM_PROMPT_TEMPLATE (r a t p : pystr) :
  str_format SYSTEM_PROMPT_TEMPLATE
    [ (lit "role_prompt", r); (lit "aipy_prompt", a);
      (lit "tips_prompt", t); (lit "api_prompt", p) ]
  = Ok (envelope r a t p).
Proof. vm_compute. reflexivity. Qed.

Lemma envelope_api_parts (r a t head v tail : pystr) :
  envelope r a t (head ++ v ++ tail)
  = (nl ++ r ++ nl ++ a ++ nl ++ t ++ nl ++ head) ++ v ++ (tail ++ nl).
Proof.
  unfold envelope. cbn [join_nl]. rewrite app_nil_r, <- !app_assoc.
  reflexivity.
Qed.

Lemma set_tips_prompt (r a t p v : pystr) :
  od_set (lit "tips_prompt") v
    [ (lit "role_prompt", r); (lit "aipy_prompt", a);
      (lit "tips_prompt", t); (lit "api_prompt", p) ]
  = [ (lit "role_prompt", r); (lit "aipy_prompt", a);
      (lit "tips_prompt", v); (lit "api_prompt", p) ].
Proof. vm_compute. reflexivity. Qed.

(** ** [get_system_prompt] *)

Lemma system_prompts_eq (tips : Tips) (api : pystr) (up : option pystr) :
  system_prompts tips api up
  = Ok [ (lit "role_prompt", py_or (stripped up) (detail (role tips)));
         (lit "aipy_prompt", AIPY_PROMPT);
         (lit "tips_prompt", tips_text tips up);
         (lit "api_prompt", render_single API_PROMPT api) ].
Proof.
  unfold system_prompts, tips_text. fold (stripped up).
  rewrite format_API_PROMPT. cbn [mbind py_result_bind].
  destruct (negb (truthy (stripped up)) && (0 <? tips_len tips)%nat);
    [|done].
  rewrite format_TIPS_PROMPT. cbn [mbind py_result_bind].
  by rewrite set_tips_prompt.
Qed.

Lemma get_system_prompt_eq (tips : Tips) (api : pystr) (up : option pystr) :
  get_system_prompt tips api up
  = Ok (envelope (py_or (stripped up) (detail (role tips))) AIPY_PROMPT
          (tips_text tips up) (render_single API_PROMPT api)).
Proof.
  unfold get_system_prompt. rewrite system_prompts_eq.
  cbn [mbind py_result_bind]. apply format_SYSTEM_PROMPT_TEMPLATE.
Qed.

Lemma role_section_eq (tips : Tips) (api : pystr) (up : option pystr) :
  section_of (lit "role_prompt") tips api up
  = Some (py_or (stripped up) (detail (role tips))).
Proof. unfold section_of. by rewrite system_prompts_eq. Qed.

Lemma tips_section_eq (tips : Tips) (api : pystr) (up : option pystr) :
  section_of (lit "tips_prompt") tips api up = Some (tips_text tips up).
Proof. unfold section_of. by rewrite system_prompts_eq. Qed.

Lemma api_section_eq (tips : Tips) (api : pystr) (up : option pystr) :
  section_of (lit "api_prompt") tips api up
  = Some (render_single API_PROMPT api).
Proof. unfold section_of. by rewrite system_prompts_eq. Qed.

Lemma stripped_nonblank (up : pystr) :
  strip up <> [] -> stripped (Some up) = Some (strip up).
Proof. destruct up as [|c up]; [by vm_compute|done]. Qed.


(** C1, as amended. For every user prompt that is non-empty after
    trimming, the role section of the system prompt is the trimmed user
    prompt and the tips section is the empty string, whatever the tips
    collection holds; the returned string is the envelope around these
    sections. *)
Theorem get_system_prompt_user_role
  (tips : Tips) (api : pystr) (user_prompt : pystr) :
  strip user_prompt <> [] ->
  section_of (lit "role_prompt") tips api (Some user_prompt)
    = Some (strip user_prompt)
  /\ section_of (lit "tips_prompt") tips api (Some user_prompt) = Some []
  /\ exists a,
       get_system_prompt tips api (Some user_prompt)
       = Ok (envelope (strip user_prompt) AIPY_PROMPT [] a).
Proof.
  intros Hs.
  rewrite role_section_eq, tips_section_eq, get_system_prompt_eq.
  unfold tips_text. rewrite (stripped_nonblank _ Hs).
  destruct (strip user_prompt) as [|c s] eqn:E; [done|].
  cbn [py_or truthy negb andb]. eauto.
Qed.

Lemma get_system_prompt_user_role_witness :
  strip (lit "  Act as a reviewer. ") <> []
  /\ section_of (lit "role_prompt") sample_tips (lit "none")
       (Some (lit "  Act as a reviewer. "))
     = Some (strip (lit "  Act as a reviewer. "))
  /\ section_of (lit "tips_prompt") sample_tips (lit "none")
       (Some (lit "  Act as a reviewer. "))
     = Some [].
Proof.
  assert (H : strip (lit "  Act as a reviewer. ") <> [])
    by (vm_compute; discriminate).
  split; [exact H|].
  destruct (get_system_prompt_user_role sample_tips (lit "none")
              (lit "  Act as a reviewer. ") H) as (Hr & Ht & _).
  split; [exact Hr | exact Ht].
Defined.

(** C1, as stated, fails: a user prompt of one space is non-empty, yet
    the role section is [tips.role.detail], not the trimmed prompt, and
    the tips section is the rendered tips template, not the empty
    string. *)
Lemma get_system_prompt_blank_user_prompt :
  lit " " <> []
  /\ section_of (lit "role_prompt") sample_tips [] (Some (lit " "))
     = Some (lit "You are a careful analyst.")
  /\ section_of (lit "role_prompt") sample_tips [] (Some (lit " "))
     <> Some (strip (lit " "))
  /\ section_of (lit "tips_prompt") sample_tips [] (Some (lit " "))
     <> Some []
  /\ get_system_prompt sample_tips [] (Some (lit " "))
     = get_system_prompt sample_tips [] None.
Proof.
  split; [vm_compute; discriminate|].
  split; [vm_compute; reflexivity|].
  split; [vm_compute; discriminate|].
  split; [vm_compute; discriminate | vm_compute; reflexivity].
Qed.

(** C2. With the user prompt absent or empty, the role section is
    [tips.role.detail]; the tips section is the empty string when the
    tips collection has length 0, and the tips template with
    [str(tips)] in place of its placeholder when the length is
    positive. *)
Theorem get_system_prompt_no_user_prompt
  (tips : Tips) (api : pystr) (user_prompt : option pystr) :
  user_prompt = None \/ user_prompt = Some [] ->
  section_of (lit "role_prompt") tips api user_prompt
    = Some (detail (role tips))
  /\ (tips_len tips = 0%nat ->
      section_of (lit "tips_prompt") tips api user_prompt = Some [])
  /\ (0 < tips_len tips ->
      exists t,
        section_of (lit "tips_prompt") tips api user_prompt = Some t
        /\ fills TIPS_PROMPT (lit "tips") (tips_str tips) t)
  /\ exists t a,
       section_of (lit "tips_prompt") tips api user_prompt = Some t
       /\ get_system_prompt tips api user_prompt
          = Ok (envelope (detail (role tips)) AIPY_PROMPT t a).
Proof.
  intros Hup.
  assert (Hs : stripped user_prompt = user_prompt /\ truthy user_prompt = false)
    by (destruct Hup as [-> | ->]; done).
  destruct Hs as [Hs Hf].
  rewrite role_section_eq, tips_section_eq, get_system_prompt_eq.
  unfold tips_text. rewrite Hs, Hf. cbn [negb andb].
  split; [by destruct Hup as [-> | ->]|].
  split; [by intros ->|].
  split.
  - intros Hlen. apply Nat.ltb_lt in Hlen. rewrite Hlen.
    eexists. split; [done | apply TIPS_PROMPT_fills].
  - assert (E : py_or user_prompt (detail (role tips)) = detail (role tips))
      by (destruct Hup as [-> | ->]; done).
    rewrite E. eauto.
Qed.

Lemma get_system_prompt_no_user_prompt_witness :
  (@None pystr = None \/ @None pystr = Some [])
  /\ section_of (lit "role_prompt") sample_tips [] None
     = Some (detail (role sample_tips))
  /\ section_of (lit "tips_prompt") no_tips [] (Some []) = Some []
  /\ exists t,
       section_of (lit "tips_prompt") sample_tips [] None = Some t
       /\ fills TIPS_PROMPT (lit "tips") (tips_str sample_tips) t.
Proof.
  split; [left; reflexivity|].
  split; [exact (proj1 (get_system_prompt_no_user_prompt sample_tips [] None
                          (or_introl eq_refl)))|].
  split; [exact (proj1 (proj2 (get_system_prompt_no_user_prompt no_tips []
                          (Some []) (or_intror eq_refl))) eq_refl)|].
  apply (proj1 (proj2 (proj2 (get_system_prompt_no_user_prompt sample_tips []
                          None (or_introl eq_refl))))).
  unfold sample_tips, tips_len. lia.
Defined.

(** C8. The api section is the api template with [api_prompt] in place
    of its placeholder, character for character, braces included; it
    does not depend on the user prompt or on the tips, and the api text
    is a contiguous part of the returned prompt. *)
Theorem get_system_prompt_api_verbatim (api : pystr) :
  exists a,
    fills API_PROMPT (lit "apis") api a
    /\ forall (tips : Tips) (user_prompt : option pystr),
         section_of (lit "api_prompt") tips api user_prompt = Some a
         /\ (exists r t,
               get_system_prompt tips api user_prompt
               = Ok (envelope r AIPY_PROMPT t a))
         /\ exists before after,
              get_system_prompt tips api user_prompt
              = Ok (before ++ api ++ after).
Proof.
  exists (render_single API_PROMPT api).
  split; [apply API_PROMPT_fills|].
  intros tips up. rewrite api_section_eq, get_system_prompt_eq.
  split; [done|]. split; [eauto|].
  unfold render_single. rewrite envelope_api_parts. eauto.
Qed.



(** ** [date.isoformat] *)

Lemma below_by_cases (P : N -> bool) (bound : N) :
  forallb (fun k => P (N.of_nat k)) (seq 0 (N.to_nat bound)) = true ->
  forall n : N, (n < bound)%N -> P n = true.
Proof.
  intros Hall n Hn.
  rewrite forallb_forall in Hall.
  rewrite <- (N2Nat.id n). apply Hall, in_seq. lia.
Qed.

Lemma zero_pad_2 (n : N) :
  (n < 100)%N -> two_digits (zero_pad 2 (decimal n)) = true.
Proof.
  apply (below_by_cases (fun n => two_digits (zero_pad 2 (decimal n)))).
  by vm_compute.
Qed.

Lemma zero_pad_4 (n : N) :
  (n < 10000)%N -> four_digits (zero_pad 4 (decimal n)) = true.
Proof.
  apply (below_by_cases (fun n => four_digits (zero_pad 4 (decimal n)))).
  by vm_compute.
Qed.

Lemma isoformat_layout (d : date) :
  valid_date d -> is_iso_date (isoformat d) = true.
Proof.
  intros (Hy & Hm & Hd). unfold isoformat.
  replace (lit "-") with [45%N] by (vm_compute; reflexivity).
  pose proof (zero_pad_4 (year d) ltac:(lia)) as H4.
  pose proof (zero_pad_2 (month d) ltac:(lia)) as H2.
  pose proof (zero_pad_2 (day d) ltac:(lia)) as H2'.
  destruct (zero_pad 4 (decimal (year d))) as [|y1 [|y2 [|y3 [|y4 [|? ?]]]]];
    try done.
  destruct (zero_pad 2 (decimal (month d))) as [|m1 [|m2 [|? ?]]]; try done.
  destruct (zero_pad 2 (decimal (day d))) as [|d1 [|d2 [|? ?]]]; try done.
  cbn [four_digits two_digits] in H4, H2, H2'.
  cbn [app is_iso_date forallb].
  repeat match goal with
         | H : _ && _ = true |- _ => apply andb_prop in H as [? ?]
         end.
  repeat match goal with
         | H : is_digit _ = true |- _ => rewrite H; clear H
         end.
  reflexivity.
Qed.

(** ** [get_task_prompt] *)

Lemma get_task_prompt_console (w : World) (instruction : pystr) :
  get_task_prompt w instruction false
  = [ (lit "task", VStr instruction);
      (lit "source", VStr (lit "User"));
      (lit "context",
       VDict
         [ (lit "os_type", VStr (platform_system w));
           (lit "os_locale", locale_value (locale_getlocale w));
           (lit "os_platform", VStr (platform_platform w));
           (lit "python_version", VStr (platform_python_version w));
           (lit "today", VStr (isoformat (date_today w)));
           (lit "TERM", VStr (environ_get w (lit "TERM") (lit "unknown")));
           (lit "LC_TERMINAL",
            VStr (environ_get w (lit "LC_TERMINAL") (lit "unknown"))) ]);
      (lit "constraints",
       VDict
         [ (lit "reply_language",
            VStr (lit "Now, use the exact language of the `task` field for subsequent responses"));
           (lit "file_creation_path", VStr (lit "current_directory")) ]) ].
Proof. reflexivity. Qed.

Lemma get_task_prompt_gui (w : World) (instruction : pystr) :
  get_task_prompt w instruction true
  = [ (lit "task", VStr instruction);
      (lit "source", VStr (lit "User"));
      (lit "context",
       VDict
         [ (lit "os_type", VStr (platform_system w));
           (lit "os_locale", locale_value (locale_getlocale w));
           (lit "os_platform", VStr (platform_platform w));
           (lit "python_version", VStr (platform_python_version w));
           (lit "today", VStr (isoformat (date_today w))) ]);
      (lit "constraints",
       VDict
         [ (lit "reply_language",
            VStr (lit "Now, use the exact language of the `task` field for subsequent responses"));
           (lit "file_creation_path", VStr (lit "current_directory"));
           (lit "matplotlib",
            VStr (lit "DO NOT use plt.show to display picture because I'm using the Agg backend. Save pictures with plt.savefig() and display them with runtime.display().")) ]) ].
Proof. reflexivity. Qed.

(** C3. In console mode the context holds exactly the keys [os_type],
    [os_locale], [os_platform], [python_version], [today], [TERM] and
    [LC_TERMINAL], in that order; [today] is the ISO-8601 rendering of
    today's date, and [TERM] and [LC_TERMINAL] are read from the
    process environment, with the string [unknown] for a variable that
    is not set. *)
Theorem get_task_prompt_console_context (w : World) (instruction : pystr) :
  exists context,
    od_get (lit "context") (get_task_prompt w instruction false)
      = Some (VDict context)
    /\ od_keys context
       = [ lit "os_type"; lit "os_locale"; lit "os_platform";
           lit "python_version"; lit "today"; lit "TERM";
           lit "LC_TERMINAL" ]
    /\ od_get (lit "os_type") context = Some (VStr (platform_system w))
    /\ od_get (lit "os_locale") context
       = Some (locale_value (locale_getlocale w))
    /\ od_get (lit "os_platform") context
       = Some (VStr (platform_platform w))
    /\ od_get (lit "python_version") context
       = Some (VStr (platform_python_version w))
    /\ od_get (lit "today") context
       = Some (VStr (isoformat (date_today w)))
    /\ (valid_date (date_today w) ->
        is_iso_date (isoformat (date_today w)) = true)
    /\ od_get (lit "TERM") context
       = Some (VStr match os_environ w !! lit "TERM" with
                    | Some v => v
                    | None => lit "unknown"
                    end)
    /\ od_get (lit "LC_TERMINAL") context
       = Some (VStr match os_environ w !! lit "LC_TERMINAL" with
                    | Some v => v
                    | None => lit "unknown"
                    end).
Proof.
  rewrite get_task_prompt_console. eexists. split; [reflexivity|].
  repeat split; try reflexivity. apply isoformat_layout.
Qed.

Lemma get_task_prompt_console_context_witness :
  valid_date (date_today sample_world)
  /\ exists context,
       od_get (lit "context")
         (get_task_prompt sample_world (lit "Plot a sine wave") false)
       = Some (VDict context)
       /\ od_get (lit "today") context
          = Some (VStr (isoformat (date_today sample_world)))
       /\ is_iso_date (isoformat (date_today sample_world)) = true.
Proof.
  assert (Hd : valid_date (date_today sample_world))
    by (unfold valid_date, sample_world, date_today, year, month, day; lia).
  split; [exact Hd|].
  destruct (get_task_prompt_console_context sample_world
              (lit "Plot a sine wave"))
    as (context & Hc & _ & _ & _ & _ & _ & Ht & Hiso & _).
  exists context. split; [exact Hc|]. split; [exact Ht | exact (Hiso Hd)].
Defined.

(** C4. In GUI mode the context has neither a [TERM] nor an
    [LC_TERMINAL] key and the constraints have a [matplotlib] key; in
    console mode the constraints have no [matplotlib] key. *)
Theorem get_task_prompt_gui_switch (w : World) (instruction : pystr) :
  (exists context constraints,
     od_get (lit "context") (get_task_prompt w instruction true)
       = Some (VDict context)
     /\ od_mem (lit "TERM") context = false
     /\ od_mem (lit "LC_TERMINAL") context = false
     /\ od_get (lit "constraints") (get_task_prompt w instruction true)
        = Some (VDict constraints)
     /\ od_mem (lit "matplotlib") constraints = true)
  /\ exists constraints,
       od_get (lit "constraints") (get_task_prompt w instruction false)
         = Some (VDict constraints)
       /\ od_mem (lit "matplotlib") constraints = false.
Proof.
  rewrite get_task_prompt_gui, get_task_prompt_console. split.
  - do 2 eexists. split; [reflexivity|].
    split; [reflexivity|]. split; [reflexivity|].
    split; reflexivity.
  - eexists. split; reflexivity.
Qed.

(** C5. In either mode the record has the keys [task], [source],
    [context] and [constraints], in that order; [task] is the
    instruction, [source] is [User], and the constraints hold
    [reply_language], a string that names the [task] field, and
    [file_creation_path], which is [current_directory]. *)
Theorem get_task_prompt_record
  (w : World) (instruction : pystr) (gui : bool) :
  od_keys (get_task_prompt w instruction gui)
    = [ lit "task"; lit "source"; lit "context"; lit "constraints" ]
  /\ od_get (lit "task") (get_task_prompt w instruction gui)
     = Some (VStr instruction)
  /\ od_get (lit "source") (get_task_prompt w instruction gui)
     = Some (VStr (lit "User"))
  /\ (exists context,
        od_get (lit "context") (get_task_prompt w instruction gui)
        = Some (VDict context))
  /\ exists constraints reply,
       od_get (lit "constraints") (get_task_prompt w instruction gui)
         = Some (VDict constraints)
       /\ od_get (lit "reply_language") constraints = Some (VStr reply)
       /\ str_contains (lit "task") reply = true
       /\ od_get (lit "file_creation_path") constraints
          = Some (VStr (lit "current_directory")).
Proof.
  destruct gui;
    [rewrite get_task_prompt_gui | rewrite get_task_prompt_console];
    (split; [reflexivity|]); (split; [reflexivity|]);
    (split; [reflexivity|]); (split; [eexists; reflexivity|]);
    do 2 eexists; (split; [reflexivity|]); (split; [reflexivity|]);
    (split; [by vm_compute | reflexivity]).
Qed.

(** ** The other record builders *)

(** C6. The results record has exactly the keys [message], [source]
    and [results], in that order; [source] is [Runtime Environment] and
    [results] is the argument itself, so a sequence comes back with the
    same elements in the same order. *)
Theorem get_results_prompt_record (results : value) :
  od_keys (get_results_prompt results)
    = [ lit "message"; lit "source"; lit "results" ]
  /\ (exists message,
        od_get (lit "message") (get_results_prompt results)
        = Some (VStr message))
  /\ od_get (lit "source") (get_results_prompt results)
     = Some (VStr (lit "Runtime Environment"))
  /\ od_get (lit "results") (get_results_prompt results) = Some results
  /\ forall r1 r2 : value,
       od_get (lit "results") (get_results_prompt (VList [r1; r2]))
       = Some (VList [r1; r2]).
Proof.
  split; [reflexivity|]. split; [eexists; reflexivity|].
  split; [reflexivity|]. split; [reflexivity|]. intros; reflexivity.
Qed.

(** C7. For all strings [msg] and [task], the empty string and strings
    with braces or block markers included, the chat record has the keys
    [message], [source], [context] and [constraints]; [message] is
    [msg], [source] is [User], and the context holds the one key
    [initial_task], whose value is [task]. *)
Theorem get_chat_prompt_record (msg task : pystr) :
  od_keys (get_chat_prompt msg task)
    = [ lit "message"; lit "source"; lit "context"; lit "constraints" ]
  /\ od_get (lit "message") (get_chat_prompt msg task) = Some (VStr msg)
  /\ od_get (lit "source") (get_chat_prompt msg task)
     = Some (VStr (lit "User"))
  /\ od_get (lit "context") (get_chat_prompt msg task)
     = Some (VDict [ (lit "initial_task", VStr task) ])
  /\ exists reply,
       od_get (lit "constraints") (get_chat_prompt msg task)
       = Some (VDict [ (lit "reply_language", VStr reply) ]).
Proof.
  split; [reflexivity|]. split; [reflexivity|]. split; [reflexivity|].
  split; [reflexivity|]. eexists; reflexivity.
Qed.

Example get_chat_prompt_markers :
  od_get (lit "message")
    (get_chat_prompt (lit "{task} <!-- Block-Start: {} -->") [])
  = Some (VStr (lit "{task} <!-- Block-Start: {} -->"))
  /\ od_get (lit "context")
       (get_chat_prompt (lit "{task} <!-- Block-Start: {} -->") [])
     = Some (VDict [ (lit "initial_task", VStr []) ]).
Proof. split; reflexivity. Qed.



(** * Further properties *)

(** ** Trimming the user prompt *)

Lemma lstrip_app_blank (pre s : pystr) :
  forallb is_space pre = true -> lstrip (pre ++ s) = lstrip s.
Proof.
  induction pre as [|c pre IH]; simpl; [done|].
  intros [Hc Hp]%andb_prop. rewrite Hc. auto.
Qed.

Lemma lstrip_solid (s : pystr) : starts_solid s = true -> lstrip s = s.
Proof.
  destruct s as [|c s]; simpl; [done|].
  intros Hc%negb_true_iff. by rewrite Hc.
Qed.

Lemma lstrip_keeps_tail (u v : pystr) (c : N) :
  is_space c = false -> lstrip (u ++ c :: v) = lstrip u ++ c :: v.
Proof.
  intros Hc. induction u as [|x u IH]; simpl; [by rewrite Hc|].
  destruct (is_space x); [exact IH | done].
Qed.

Lemma lstrip_nil_blank (s : pystr) :
  lstrip s = [] -> forallb is_space s = true.
Proof.
  induction s as [|c s IH]; simpl; [done|].
  destruct (is_space c); [exact IH | done].
Qed.

Lemma lstrip_nil_or_solid (s : pystr) :
  lstrip s = [] \/ starts_solid (lstrip s) = true.
Proof.
  induction s as [|c s IH]; simpl; [by left|].
  destruct (is_space c) eqn:E; [exact IH|].
  right. simpl. by rewrite E.
Qed.

Lemma forallb_rev (f : N -> bool) (s : pystr) :
  forallb f (rev s) = forallb f s.
Proof.
  induction s as [|c s IH]; simpl; [done|].
  rewrite forallb_app, IH. simpl. rewrite andb_true_r. apply andb_comm.
Qed.

Lemma rstrip_app_blank (s post : pystr) :
  forallb is_space post = true -> rstrip (s ++ post) = rstrip s.
Proof.
  intros Hp. unfold rstrip. rewrite rev_app_distr, lstrip_app_blank; [done|].
  by rewrite forallb_rev.
Qed.

Lemma rstrip_solid (s : pystr) : ends_solid s = true -> rstrip s = s.
Proof.
  intros H. unfold rstrip. rewrite (lstrip_solid _ H). apply rev_involutive.
Qed.

Lemma rstrip_keeps_head (c : N) (s : pystr) :
  is_space c = false -> rstrip (c :: s) = c :: rstrip s.
Proof.
  intros Hc. unfold rstrip. simpl rev at 2.
  rewrite (lstrip_keeps_tail _ [] c Hc), rev_app_distr. done.
Qed.

Lemma strip_around (pre core post : pystr) :
  forallb is_space pre = true -> forallb is_space post = true ->
  starts_solid core = true -> ends_solid core = true ->
  strip (pre ++ core ++ post) = core.
Proof.
  intros Hpre Hpost Hs He. unfold strip.
  rewrite (lstrip_app_blank _ _ Hpre), lstrip_solid.
  - by rewrite (rstrip_app_blank _ _ Hpost), rstrip_solid.
  - destruct core; [done | exact Hs].
Qed.

Lemma strip_nil_or_solid (s : pystr) :
  strip s = [] \/ (starts_solid (strip s) = true /\ ends_solid (strip s) = true).
Proof.
  unfold strip.
  destruct (lstrip_nil_or_solid s) as [-> | Hs]; [by left|].
  right. split.
  - destruct (lstrip s) as [|c t]; [done|].
    simpl in Hs. apply negb_true_iff in Hs.
    rewrite (rstrip_keeps_head c t Hs). simpl. by rewrite Hs.
  - unfold ends_solid, rstrip. rewrite rev_involutive.
    destruct (lstrip_nil_or_solid (rev (lstrip s))) as [E | E]; [|exact E].
    destruct (lstrip s) as [|c t]; [done|].
    simpl in Hs. apply negb_true_iff in Hs.
    simpl rev in E. rewrite (lstrip_keeps_tail _ [] c Hs) in E.
    by destruct (lstrip (rev t)).
Qed.

Lemma strip_nil_blank (s : pystr) :
  strip s = [] -> forallb is_space s = true.
Proof.
  intros E. apply lstrip_nil_blank.
  destruct (lstrip_nil_or_solid s) as [H | H]; [exact H|].
  unfold strip in E. destruct (lstrip s) as [|c t]; [done|].
  simpl in H. apply negb_true_iff in H.
  by rewrite (rstrip_keeps_head c t H) in E.
Qed.

Lemma strip_idempotent (s : pystr) : strip (strip s) = strip s.
Proof.
  destruct (strip_nil_or_solid s) as [-> | [Hs He]]; [done|].
  pose proof (strip_around [] (strip s) [] eq_refl eq_refl Hs He) as H.
  by rewrite app_nil_r in H.
Qed.

Lemma stripped_solid (up : pystr) :
  forallb is_space up = false -> stripped (Some up) = Some (strip up)
  /\ strip up <> [].
Proof.
  intros Hb.
  assert (Hn : strip up <> []).
  { intros E. apply strip_nil_blank in E. congruence. }
  split; [by apply stripped_nonblank | exact Hn].
Qed.

Lemma stripped_strip (up : pystr) :
  stripped (Some (strip up)) = stripped (Some up).
Proof.
  destruct up as [|c up]; [done|].
  change (stripped (Some (c :: up))) with (Some (strip (c :: up))).
  destruct (strip (c :: up)) as [|x s] eqn:E; [done|].
  change (stripped (Some (x :: s))) with (Some (strip (x :: s))).
  by rewrite <- E, strip_idempotent.
Qed.




(** X3. Trimming the user prompt before the call changes nothing: the
    call on the trimmed prompt returns what the call on the prompt
    returns. *)
Theorem get_system_prompt_trim_first
  (tips : Tips) (api : pystr) (user_prompt : pystr) :
  get_system_prompt tips api (Some (strip user_prompt))
  = get_system_prompt tips api (Some user_prompt).
Proof.
  rewrite !get_system_prompt_eq. unfold tips_text.
  by rewrite stripped_strip.
Qed.

(** X4. What is not read from the tips. With a user prompt that holds
    a character that is not whitespace the returned prompt is the same
    for every tips collection; and for a tips collection of length 0
    the returned prompt does not depend on the collection's string
    rendering. *)
Theorem get_system_prompt_tips_unread (api : pystr) :
  (forall (user_prompt : pystr) (tips tips' : Tips),
     forallb is_space user_prompt = false ->
     get_system_prompt tips api (Some user_prompt)
     = get_system_prompt tips' api (Some user_prompt))
  /\ (forall (user_prompt : option pystr) (tips : Tips) (s : pystr),
        tips_len tips = 0%nat ->
        get_system_prompt (with_str tips s) api user_prompt
        = get_system_prompt tips api user_prompt).
Proof.
  split.
  - intros up tips tips' Hb. destruct (stripped_solid _ Hb) as [Hs Hn].
    rewrite !get_system_prompt_eq. unfold tips_text. rewrite Hs.
    destruct (strip up) as [|c s]; done.
  - intros up tips s Hlen. rewrite !get_system_prompt_eq.
    unfold tips_text, with_str. cbn [tips_len role tips_str].
    rewrite Hlen. cbn [Nat.ltb Nat.leb]. by rewrite andb_false_r.
Qed.

Lemma get_system_prompt_tips_unread_witness :
  forallb is_space (lit "Be brief.") = false
  /\ tips_len no_tips = 0%nat
  /\ get_system_prompt sample_tips [] (Some (lit "Be brief."))
     = get_system_prompt no_tips [] (Some (lit "Be brief."))
  /\ get_system_prompt (with_str no_tips (lit "{x}")) [] None
     = get_system_prompt no_tips [] None.
Proof.
  assert (H1 : forallb is_space (lit "Be brief.") = false)
    by (vm_compute; reflexivity).
  split; [exact H1|]. split; [reflexivity|].
  split.
  - exact (proj1 (get_system_prompt_tips_unread []) (lit "Be brief.")
             sample_tips no_tips H1).
  - exact (proj2 (get_system_prompt_tips_unread []) None no_tips
             (lit "{x}") eq_refl).
Defined.

(** ** Rendering the envelope *)

(** X5. Rendering the envelope needs the four sections and nothing
    else: for any dictionary, in any key order and with any further
    keys, [SYSTEM_PROMPT_TEMPLATE.format] returns the envelope of the
    four values when they are all present, and otherwise raises a
    [KeyError] for the first section, in the order role, aipy, tips,
    api, that is missing. *)
Theorem format_envelope_needs_four_sections (prompts : odict pystr) :
  str_format SYSTEM_PROMPT_TEMPLATE prompts
  = match od_get (lit "role_prompt") prompts with
    | None => Raise (KeyError (lit "role_prompt"))
    | Some r =>
      match od_get (lit "aipy_prompt") prompts with
      | None => Raise (KeyError (lit "aipy_prompt"))
      | Some a =>
        match od_get (lit "tips_prompt") prompts with
        | None => Raise (KeyError (lit "tips_prompt"))
        | Some t =>
          match od_get (lit "api_prompt") prompts with
          | None => Raise (KeyError (lit "api_prompt"))
          | Some p => Ok (envelope r a t p)
          end
        end
      end
    end.
Proof.
  unfold str_format, envelope.
  evaluate_literal SYSTEM_PROMPT_TEMPLATE.
  evaluate_literal (lit "role_prompt"). evaluate_literal (lit "aipy_prompt").
  evaluate_literal (lit "tips_prompt"). evaluate_literal (lit "api_prompt").
  cbn.
  repeat (match goal with
          | |- context [od_get ?k prompts] => destruct (od_get k prompts)
          end; cbn);
    reflexivity.
Qed.

(** ** Item assignment on ordered dictionaries *)

Lemma str_eqb_neq (a b : pystr) : a <> b -> str_eqb a b = false.
Proof.
  intros Hne. destruct (str_eqb a b) eqn:E; [|done].
  by apply str_eqb_eq in E.
Qed.

Lemma str_eqb_spec (a b : pystr) : str_eqb a b = true <-> a = b.
Proof. split; [apply str_eqb_eq | intros ->; apply str_eqb_refl]. Qed.

Section OdictLaws.
Context {V : Type}.
Implicit Types (d : odict V) (k : pystr) (v : V).

Lemma od_get_none_keys k d : od_get k d = None <-> k ∉ od_keys d.
Proof.
  induction d as [|[k0 v0] d IH]; simpl.
  - split; [intros _; apply not_elem_of_nil | done].
  - rewrite not_elem_of_cons. destruct (str_eqb k k0) eqn:E.
    + apply str_eqb_eq in E. split; [done | by intros [? _]].
    + rewrite IH. split; [|by intros [_ ?]].
      intros H. split; [|done]. intros ->. by rewrite str_eqb_refl in E.
Qed.

(** X6. Reading after assigning: in the dictionary left by
    [d[k] = v], the key [k] holds [v] and every other key holds what it
    held in [d]. *)
Theorem od_get_after_set k k' v d :
  od_get k' (od_set k v d)
  = if str_eqb k' k then Some v else od_get k' d.
Proof.
  induction d as [|[k0 v0] d IH]; simpl.
  - destruct (str_eqb k' k); done.
  - destruct (str_eqb k k0) eqn:E; simpl.
    + apply str_eqb_eq in E. subst k0.
      destruct (str_eqb k' k); done.
    + destruct (str_eqb k' k0) eqn:E'.
      * apply str_eqb_eq in E'. subst k0.
        rewrite str_eqb_neq; [done|].
        intros ->. by rewrite str_eqb_refl in E.
      * exact IH.
Qed.

(** X7. Assigning keeps the order of the keys: [d[k] = v] leaves the
    sequence of keys as it is when [k] is present, and puts [k] at the
    end when it is not; so keys that are pairwise distinct stay
    pairwise distinct. *)
Theorem od_keys_after_set k v d :
  od_keys (od_set k v d)
  = (if od_mem k d then od_keys d else od_keys d ++ [k])
  /\ (NoDup (od_keys d) -> NoDup (od_keys (od_set k v d))).
Proof.
  assert (Hk : od_keys (od_set k v d)
               = if od_mem k d then od_keys d else od_keys d ++ [k]).
  { unfold od_mem. induction d as [|[k0 v0] d IH]; simpl; [done|].
    destruct (str_eqb k k0) eqn:E; simpl.
    - apply str_eqb_eq in E. by subst k0.
    - rewrite IH. by destruct (od_get k d). }
  split; [exact Hk|].
  intros Hnd. rewrite Hk. unfold od_mem.
  destruct (od_get k d) eqn:E; [exact Hnd|].
  apply od_get_none_keys in E.
  apply NoDup_app. split; [exact Hnd|].
  split; [|apply NoDup_singleton].
  intros x Hx Hx'. apply list_elem_of_singleton in Hx'. by subst x.
Qed.

End OdictLaws.

Lemma od_keys_after_set_witness :
  NoDup (od_keys (get_chat_prompt (lit "hi") (lit "plot")))
  /\ NoDup (od_keys (od_set (lit "source") (VStr (lit "Agent"))
                       (get_chat_prompt (lit "hi") (lit "plot")))).
Proof.
  assert (H : NoDup (od_keys (get_chat_prompt (lit "hi") (lit "plot")))).
  { vm_compute. repeat (apply NoDup_cons; split; [|]);
      [..|apply NoDup_nil];
      rewrite ?not_elem_of_cons; repeat split; try discriminate;
      apply not_elem_of_nil. }
  split; [exact H|].
  exact (proj2 (od_keys_after_set (lit "source") (VStr (lit "Agent"))
                  (get_chat_prompt (lit "hi") (lit "plot"))) H).
Defined.

(** ** The task prompt in its two modes *)

(** X8. The two modes differ by three trailing entries only: the
    console context is the GUI context followed by [TERM] and
    [LC_TERMINAL], the GUI constraints are the console constraints
    followed by [matplotlib], and [task] and [source] are the same. *)
Theorem get_task_prompt_modes (w : World) (instruction : pystr) :
  exists context constraints term lc_terminal advice,
    get_task_prompt w instruction true
    = [ (lit "task", VStr instruction);
        (lit "source", VStr (lit "User"));
        (lit "context", VDict context);
        (lit "constraints",
         VDict (constraints ++ [ (lit "matplotlib", VStr advice) ])) ]
    /\ get_task_prompt w instruction false
       = [ (lit "task", VStr instruction);
           (lit "source", VStr (lit "User"));
           (lit "context",
            VDict (context ++ [ (lit "TERM", VStr term);
                                (lit "LC_TERMINAL", VStr lc_terminal) ]));
           (lit "constraints", VDict constraints) ]
    /\ od_keys context
       = [ lit "os_type"; lit "os_locale"; lit "os_platform";
           lit "python_version"; lit "today" ]
    /\ od_keys constraints
       = [ lit "reply_language"; lit "file_creation_path" ].
Proof.
  rewrite get_task_prompt_gui, get_task_prompt_console.
  exists [ (lit "os_type", VStr (platform_system w));
           (lit "os_locale", locale_value (locale_getlocale w));
           (lit "os_platform", VStr (platform_platform w));
           (lit "python_version", VStr (platform_python_version w));
           (lit "today", VStr (isoformat (date_today w))) ].
  exists [ (lit "reply_language",
            VStr (lit "Now, use the exact language of the `task` field for subsequent responses"));
           (lit "file_creation_path", VStr (lit "current_directory")) ].
  do 3 eexists. cbn [app]. split; [reflexivity|]. split; [reflexivity|].
  split; reflexivity.
Qed.

(** X9. The instruction reaches the [task] field and nothing else: the
    record for another instruction is the record at hand with [task]
    assigned anew. *)
Theorem get_task_prompt_other_instruction
  (w : World) (instruction instruction' : pystr) (gui : bool) :
  get_task_prompt w instruction' gui
  = od_set (lit "task") (VStr instruction')
      (get_task_prompt w instruction gui).
Proof.
  destruct gui;
    [rewrite !get_task_prompt_gui | rewrite !get_task_prompt_console];
    reflexivity.
Qed.



(** ** [date.isoformat], read back *)

Lemma zero_pad_2_value (n : N) :
  (n < 100)%N -> digits_value (zero_pad 2 (decimal n)) = n.
Proof.
  intros H. apply N.eqb_eq. revert n H.
  apply (below_by_cases
           (fun n => (digits_value (zero_pad 2 (decimal n)) =? n)%N)).
  by vm_compute.
Qed.

Lemma zero_pad_4_value (n : N) :
  (n < 10000)%N -> digits_value (zero_pad 4 (decimal n)) = n.
Proof.
  intros H. apply N.eqb_eq. revert n H.
  apply (below_by_cases
           (fun n => (digits_value (zero_pad 4 (decimal n)) =? n)%N)).
  by vm_compute.
Qed.

(** X11. The [today] field determines the date: two dates within the
    bounds of [datetime.date] that have the same ISO rendering are the
    same date, and the year, month and day are the numbers written in
    characters 0-3, 5-6 and 8-9 of the rendering. *)
Theorem isoformat_determines_date (d d' : date) :
  valid_date d -> valid_date d' ->
  (digits_value (take 4 (isoformat d)) = year d
   /\ digits_value (take 2 (drop 5 (isoformat d))) = month d
   /\ digits_value (take 2 (drop 8 (isoformat d))) = day d)
  /\ (isoformat d = isoformat d' -> d = d').
Proof.
  assert (Hread : forall e, valid_date e ->
            digits_value (take 4 (isoformat e)) = year e
            /\ digits_value (take 2 (drop 5 (isoformat e))) = month e
            /\ digits_value (take 2 (drop 8 (isoformat e))) = day e).
  { intros e (Hy & Hm & Hd). unfold isoformat.
    replace (lit "-") with [45%N] by (vm_compute; reflexivity).
    pose proof (zero_pad_4 (year e) ltac:(lia)) as H4.
    pose proof (zero_pad_2 (month e) ltac:(lia)) as H2.
    pose proof (zero_pad_2 (day e) ltac:(lia)) as H2'.
    pose proof (zero_pad_4_value (year e) ltac:(lia)) as V4.
    pose proof (zero_pad_2_value (month e) ltac:(lia)) as V2.
    pose proof (zero_pad_2_value (day e) ltac:(lia)) as V2'.
    destruct (zero_pad 4 (decimal (year e)))
      as [|y1 [|y2 [|y3 [|y4 [|? ?]]]]]; try done.
    destruct (zero_pad 2 (decimal (month e))) as [|m1 [|m2 [|? ?]]];
      try done.
    destruct (zero_pad 2 (decimal (day e))) as [|d1 [|d2 [|? ?]]];
      try done. }
  intros Hv Hv'. split; [by apply Hread|].
  intros E.
  destruct (Hread d Hv) as (Hy & Hm & Hd).
  destruct (Hread d' Hv') as (Hy' & Hm' & Hd').
  rewrite E in Hy, Hm, Hd.
  destruct d as [y m dd], d' as [y' m' dd']. cbn [year month day] in *.
  congruence.
Qed.

Lemma isoformat_determines_date_witness :
  valid_date (date_today sample_world)
  /\ valid_date {| year := 2025; month := 3; day := 9 |}
  /\ digits_value (take 4 (isoformat (date_today sample_world)))
     = year (date_today sample_world).
Proof.
  assert (Hd : valid_date (date_today sample_world))
    by (unfold valid_date, sample_world, date_today, year, month, day; lia).
  assert (Hd' : valid_date {| year := 2025; month := 3; day := 9 |})
    by (unfold valid_date, year, month, day; lia).
  split; [exact Hd|]. split; [exact Hd'|].
  exact (proj1 (proj1 (isoformat_determines_date _ _ Hd Hd'))).
Defined.

(** ** The chat and tool-result records *)

(** X12. The constraints of a chat record hold [reply_language] and
    nothing else, and its text names the [message] field, not the
    [task] field; the context and the constraints do not depend on the
    message. *)
Theorem get_chat_prompt_constraints (msg task : pystr) :
  (exists reply,
     od_get (lit "constraints") (get_chat_prompt msg task)
       = Some (VDict [ (lit "reply_language", VStr reply) ])
     /\ str_contains (lit "`message`") reply = true
     /\ str_contains (lit "`task`") reply = false)
  /\ forall msg' : pystr,
       get_chat_prompt msg' task
       = od_set (lit "message") (VStr msg') (get_chat_prompt msg task).
Proof.
  split; [|intros; reflexivity].
  eexists. split; [reflexivity|]. split; by vm_compute.
Qed.

(** X13. The tool-result record has exactly the keys [message],
    [source] and [result], in that order; [source] is [MCP Tool],
    [result] is the argument itself, and the message is the same for
    every argument. *)
Theorem get_mcp_result_prompt_record (result : value) :
  exists message,
    (forall r : value,
       get_mcp_result_prompt r
       = [ (lit "message", VStr message);
           (lit "source", VStr (lit "MCP Tool"));
           (lit "result", r) ])
    /\ od_keys (get_mcp_result_prompt result)
       = [ lit "message"; lit "source"; lit "result" ]
    /\ od_get (lit "source") (get_mcp_result_prompt result)
       = Some (VStr (lit "MCP Tool"))
    /\ od_get (lit "result") (get_mcp_result_prompt result) = Some result.
Proof.
  eexists. split; [intros; reflexivity|].
  split; [reflexivity|]. split; reflexivity.
Qed.

